(** * khal/ui/startendeditor.py: the start/end state of [StartEndEditor]

    A shallow embedding of the state logic of the [StartEndEditor] widget:
    the four field validators, the all-day and timezone toggles, and the
    [changed] and [validate] queries.  The widget tree that [rebuild]
    assembles is presentation only and is not part of the modelled state. *)

From Stdlib Require Import ZArith Bool String Ascii List Lia.
Import ListNotations.
Open Scope Z_scope.

(** ** Values of Python's [datetime] module *)

(** A [datetime.date], identified by its proleptic Gregorian ordinal
    ([date.toordinal()]).  The dates Python can build are those from
    0001-01-01, of ordinal 1, to 9999-12-31, of ordinal [MAXORDINAL];
    arithmetic that would leave them raises [OverflowError]. *)
Record date := mkdate { toordinal : Z }.

Definition MAXORDINAL : Z := 3652059.

(** A naive [datetime.time]. *)
Record time := mktime { hour : Z; minute : Z; second : Z; microsecond : Z }.

(** [time(0)], which is also [datetime.min.time()]. *)
Definition time0 : time := mktime 0 0 0 0.

(** A pytz tzinfo object: the zone it belongs to and the UTC offset (in
    microseconds) it stands for.  A zone object such as
    [conf['locale']['default_timezone']] and the per-offset instances that
    [localize] and [astimezone] attach to datetimes all have this shape. *)
Record tzinfo := mktz { zone : string; utcoffset : Z }.

(** A [datetime.datetime]; [dt_tzinfo = None] is a naive datetime. *)
Record datetime := mkdatetime {
  dt_date : date;
  dt_time : time;
  dt_tzinfo : option tzinfo
}.

(** What [start] and [end] may hold: a [date] or a [datetime]. *)
Inductive moment :=
| D (d : date)
| DT (dt : datetime).

(** [isinstance(x, datetime)] *)
Definition isinstance_datetime (x : moment) : bool :=
  match x with DT _ => true | D _ => false end.

(** The exceptions the modelled code can meet. *)
Inductive exn := AttributeError | TypeError | ValueError | OverflowError.

(** Results of a Python expression that may raise. *)
Definition res (A : Type) : Type := exn + A.

(** [x.date()]: a datetime gives its date; a [date] has no such method. *)
Definition date_method (x : moment) : res date :=
  match x with DT dt => inr (dt_date dt) | D _ => inl AttributeError end.

(** [x.time()]: the time of day without tzinfo; a [date] has no such method. *)
Definition time_method (x : moment) : res time :=
  match x with DT dt => inr (dt_time dt) | D _ => inl AttributeError end.

(** [getattr(x, 'tzinfo', None)] *)
Definition getattr_tzinfo (x : moment) : option tzinfo :=
  match x with DT dt => dt_tzinfo dt | D _ => None end.

(** The year, month and day that [datetime.combine] reads off its first
    argument, which may be a [date] or a [datetime]. *)
Definition date_fields (x : moment) : date :=
  match x with DT dt => dt_date dt | D d => d end.

(** [datetime.combine(d, t)] with a naive [t]: a naive datetime. *)
Definition combine (d : date) (t : time) : datetime := mkdatetime d t None.

(** *** Wall-clock arithmetic *)

Definition DAY : Z := 86400000000.

(** Microseconds since midnight. *)
Definition micros (t : time) : Z :=
  ((hour t * 60 + minute t) * 60 + second t) * 1000000 + microsecond t.

Definition time_of_micros (m : Z) : time :=
  mktime (m / 3600000000) ((m / 60000000) mod 60) ((m / 1000000) mod 60)
         (m mod 1000000).

(** Microseconds between 0001-01-01 00:00 and the wall-clock reading. *)
Definition wallclock (d : date) (t : time) : Z :=
  (toordinal d - 1) * DAY + micros t.

Definition date_of_wallclock (w : Z) : date := mkdate (w / DAY + 1).
Definition time_of_wallclock (w : Z) : time := time_of_micros (w mod DAY).

(** The wall-clock readings a datetime can hold: 0001-01-01 00:00:00 up to
    9999-12-31 23:59:59.999999. *)
Definition in_range (w : Z) : bool := (0 <=? w) && (w <? MAXORDINAL * DAY).

(** [dt + delta] and [dt - delta] on naive readings. *)
Definition checked (w : Z) : res Z :=
  if in_range w then inr w else inl OverflowError.

(** *** Comparisons *)

Definition date_eqb (a b : date) : bool := toordinal a =? toordinal b.
Definition date_leb (a b : date) : bool := toordinal a <=? toordinal b.

(** The point in time of an aware datetime: its wall clock minus its offset. *)
Definition instant (dt : datetime) (tz : tzinfo) : Z :=
  wallclock (dt_date dt) (dt_time dt) - utcoffset tz.

(** [a == b] on datetimes: naive ones compare their fields, aware ones their
    instants, and a naive one never equals an aware one. *)
Definition datetime_eqb (a b : datetime) : bool :=
  match dt_tzinfo a, dt_tzinfo b with
  | None, None =>
      wallclock (dt_date a) (dt_time a) =? wallclock (dt_date b) (dt_time b)
  | Some za, Some zb => instant a za =? instant b zb
  | _, _ => false
  end.

(** [a <= b] on datetimes; mixing naive and aware raises [TypeError]. *)
Definition datetime_le (a b : datetime) : res bool :=
  match dt_tzinfo a, dt_tzinfo b with
  | None, None =>
      inr (wallclock (dt_date a) (dt_time a) <=? wallclock (dt_date b) (dt_time b))
  | Some za, Some zb => inr (instant a za <=? instant b zb)
  | _, _ => inl TypeError
  end.

(** [a == b]: a [date] and a [datetime] are never equal. *)
Definition py_eq (a b : moment) : bool :=
  match a, b with
  | D x, D y => date_eqb x y
  | DT x, DT y => datetime_eqb x y
  | _, _ => false
  end.

(** [a != b] *)
Definition py_ne (a b : moment) : bool := negb (py_eq a b).

(** [a <= b]: a [date] and a [datetime] cannot be ordered. *)
Definition py_le (a b : moment) : res bool :=
  match a, b with
  | D x, D y => inr (date_leb x y)
  | DT x, DT y => datetime_le x y
  | _, _ => inl TypeError
  end.

(** ** The editor *)

(** The keys of [conf['locale']] that the state logic reads. *)
Record Conf := mkConf {
  longdateformat : string;
  timeformat : string;
  default_timezone : tzinfo
}.

Record StartEndEditor := mkEditor {
  allday : bool;
  _tz_state : bool;
  conf : Conf;
  _startdt : moment;
  _original_start : moment;
  _enddt : moment;
  _original_end : moment
}.

Definition set_startdt (v : moment) (s : StartEndEditor) : StartEndEditor :=
  mkEditor (allday s) (_tz_state s) (conf s) v (_original_start s)
           (_enddt s) (_original_end s).

Definition set_enddt (v : moment) (s : StartEndEditor) : StartEndEditor :=
  mkEditor (allday s) (_tz_state s) (conf s) (_startdt s) (_original_start s)
           v (_original_end s).

Definition set_allday (b : bool) (s : StartEndEditor) : StartEndEditor :=
  mkEditor b (_tz_state s) (conf s) (_startdt s) (_original_start s)
           (_enddt s) (_original_end s).

Definition set_tz_state (b : bool) (s : StartEndEditor) : StartEndEditor :=
  mkEditor (allday s) b (conf s) (_startdt s) (_original_start s)
           (_enddt s) (_original_end s).

(** How a method call ends: it returns a value or an exception leaves it,
    and either way the editor is in some state afterwards. *)
Inductive outcome (A : Type) :=
| Returned (a : A) (s : StartEndEditor)
| Raised (e : exn) (s : StartEndEditor).
Arguments Returned {A} a s.
Arguments Raised {A} e s.

Definition state_after {A} (o : outcome A) : StartEndEditor :=
  match o with Returned _ s => s | Raised _ s => s end.

(** Methods of the editor: state passing with exceptions. *)
Definition M (A : Type) : Type := StartEndEditor -> outcome A.

Definition ret {A} (a : A) : M A := fun s => Returned a s.

Definition bind {A B} (m : M A) (f : A -> M B) : M B :=
  fun s => match m s with
           | Returned a s' => f a s'
           | Raised e s' => Raised e s'
           end.

Definition get : M StartEndEditor := fun s => Returned s s.
Definition modify (f : StartEndEditor -> StartEndEditor) : M unit :=
  fun s => Returned tt (f s).
Definition lift {A} (r : res A) : M A :=
  fun s => match r with inr a => Returned a s | inl e => Raised e s end.

Declare Scope editor_scope.
Delimit Scope editor_scope with editor.
Notation "x <- m ;; k" := (bind m (fun x => k))
  (at level 61, m at next level, right associativity) : editor_scope.
Notation "m ;; k" := (bind m (fun _ => k))
  (at level 61, right associativity) : editor_scope.

(** [StartEndEditor.__init__] *)
Definition init (start end_ : moment) (c : Conf) : StartEndEditor :=
  mkEditor (negb (isinstance_datetime start)) false c start start end_ end_.

(** The [startdt] property. *)
Definition startdt (s : StartEndEditor) : moment :=
  if allday s && isinstance_datetime (_startdt s)
  then D (date_fields (_startdt s))
  else _startdt s.

(** The [enddt] property. *)
Definition enddt (s : StartEndEditor) : moment :=
  if allday s && isinstance_datetime (_enddt s)
  then D (date_fields (_enddt s))
  else _enddt s.

(** The [_start_time] property: [AttributeError] from [.time()] gives
    [time(0)]. *)
Definition _start_time (s : StartEndEditor) : time :=
  match time_method (_startdt s) with
  | inr t => t
  | inl _ => time0
  end.

(** The [_end_time] property. *)
Definition _end_time (s : StartEndEditor) : time :=
  match time_method (_enddt s) with
  | inr t => t
  | inl _ => time0
  end.

(** The [timezone_start] property. *)
Definition timezone_start (s : StartEndEditor) : tzinfo :=
  match getattr_tzinfo (startdt s) with
  | None => default_timezone (conf s)
  | Some tz => tz
  end.

(** The [timezone_end] property. *)
Definition timezone_end (s : StartEndEditor) : tzinfo :=
  match getattr_tzinfo (enddt s) with
  | None => default_timezone (conf s)
  | Some tz => tz
  end.

(** The [changed] property. *)
Definition changed (s : StartEndEditor) : bool :=
  py_ne (startdt s) (_original_start s) || py_ne (enddt s) (_original_end s).

(** [validate]: make sure [startdt <= enddt]. *)
Definition validate (s : StartEndEditor) : res bool :=
  py_le (startdt s) (enddt s).

(** [rebuild] only assembles widgets from the state; it leaves the state
    as it is. *)
Definition rebuild : M unit := ret tt.

(** The zone a moment is taken to be in: its own when it has a tzinfo,
    the default timezone otherwise. *)
Definition zone_or_default (x : moment) (c : Conf) : string :=
  match getattr_tzinfo x with
  | Some tz => zone tz
  | None => zone (default_timezone c)
  end.

(** What a validator of a start field may touch: at most [_startdt]. *)
Definition only_start_differs (s s' : StartEndEditor) : Prop :=
  _enddt s' = _enddt s /\ allday s' = allday s /\
  _tz_state s' = _tz_state s /\ conf s' = conf s /\
  _original_start s' = _original_start s /\
  _original_end s' = _original_end s.

(** What a validator of an end field may touch: at most [_enddt]. *)
Definition only_end_differs (s s' : StartEndEditor) : Prop :=
  _startdt s' = _startdt s /\ allday s' = allday s /\
  _tz_state s' = _tz_state s /\ conf s' = conf s /\
  _original_start s' = _original_start s /\
  _original_end s' = _original_end s.

(** In timed mode the stored start and end are both datetimes. *)
Definition timed_has_datetimes (s : StartEndEditor) : Prop :=
  allday s = false ->
  isinstance_datetime (_startdt s) = true /\
  isinstance_datetime (_enddt s) = true.

(** A datetime with a tzinfo. *)
Definition aware (x : moment) : bool :=
  match x with
  | DT dt => match dt_tzinfo dt with Some _ => true | None => false end
  | D _ => false
  end.

(** ** The widgets [rebuild] assembles

    The widget classes are the toolkit's; a widget is kept here as the
    constructor call that made it, with the arguments the editor passes. *)







(** ** A concrete setting for the examples

    The standard library's calendar arithmetic, a [strptime] for the
    directives [%Y %m %d %H %M] with zero-padded fields, and a zone table
    with the offsets of January 2024 whose [localize] cannot place the
    first and the last day of the calendar. *)

Definition _is_leap (y : Z) : bool :=
  (y mod 4 =? 0) && (negb (y mod 100 =? 0) || (y mod 400 =? 0)).

Definition _days_before_year (y : Z) : Z :=
  let y' := y - 1 in y' * 365 + y' / 4 - y' / 100 + y' / 400.

Definition _days_in_month (y m : Z) : Z :=
  if (m =? 2) && _is_leap y then 29
  else nth (Z.to_nat m) [0; 31; 28; 31; 30; 31; 30; 31; 31; 30; 31; 30; 31] 0.

Definition _days_before_month (y m : Z) : Z :=
  nth (Z.to_nat m) [0; 0; 31; 59; 90; 120; 151; 181; 212; 243; 273; 304; 334] 0
  + (if (2 <? m) && _is_leap y then 1 else 0).

Definition _ymd2ord (y m d : Z) : Z :=
  _days_before_year y + _days_before_month y m + d.

(** [date(y, m, d)] *)
Definition date_ymd (y m d : Z) : date := mkdate (_ymd2ord y m d).

Definition digit (c : ascii) : option Z :=
  let n := Z.of_nat (nat_of_ascii c) in
  if (48 <=? n) && (n <=? 57) then Some (n - 48) else None.

(** Reads exactly [k] decimal digits. *)
Fixpoint digits (k : nat) (acc : Z) (text : string) : option (Z * string) :=
  match k with
  | O => Some (acc, text)
  | S k' =>
      match text with
      | String c rest =>
          match digit c with
          | Some d => digits k' (acc * 10 + d) rest
          | None => None
          end
      | EmptyString => None
      end
  end.

Record parsed := mkparsed {
  p_year : Z; p_month : Z; p_day : Z; p_hour : Z; p_minute : Z
}.

Definition field (k : nat) (lo hi : Z) (text : string) : option (Z * string) :=
  match digits k 0 text with
  | Some (n, rest) => if (lo <=? n) && (n <=? hi) then Some (n, rest) else None
  | None => None
  end.

Fixpoint parse (format text : string) (p : parsed) : option parsed :=
  match format with
  | EmptyString => match text with EmptyString => Some p | _ => None end
  | String "%" (String c format') =>
      let with_field k lo hi upd :=
        match field k lo hi text with
        | Some (n, rest) => parse format' rest (upd n)
        | None => None
        end in
      match c with
      | "Y"%char => with_field 4%nat 1 9999 (fun n =>
          mkparsed n (p_month p) (p_day p) (p_hour p) (p_minute p))
      | "m"%char => with_field 2%nat 1 12 (fun n =>
          mkparsed (p_year p) n (p_day p) (p_hour p) (p_minute p))
      | "d"%char => with_field 2%nat 1 31 (fun n =>
          mkparsed (p_year p) (p_month p) n (p_hour p) (p_minute p))
      | "H"%char => with_field 2%nat 0 23 (fun n =>
          mkparsed (p_year p) (p_month p) (p_day p) n (p_minute p))
      | "M"%char => with_field 2%nat 0 59 (fun n =>
          mkparsed (p_year p) (p_month p) (p_day p) (p_hour p) n)
      | _ => None
      end
  | String c format' =>
      match text with
      | String c' rest => if Ascii.eqb c c' then parse format' rest p else None
      | EmptyString => None
      end
  end.

Definition sample_strptime (text format : string) : option datetime :=
  match parse format text (mkparsed 1900 1 1 0 0) with
  | Some p =>
      if p_day p <=? _days_in_month (p_year p) (p_month p)
      then Some (mkdatetime (date_ymd (p_year p) (p_month p) (p_day p))
                            (mktime (p_hour p) (p_minute p) 0 0) None)
      else None
  | None => None
  end.

Definition HOUR : Z := 3600000000.

Definition sample_offset (z : string) : Z :=
  if String.eqb z "Europe/Paris" then HOUR
  else if String.eqb z "America/New_York" then -5 * HOUR
  else 0.

Definition sample_localize_utcoffset (z : string) (d : date) (_ : time)
  : option Z :=
  if (1 <? toordinal d) && (toordinal d <? MAXORDINAL)
  then Some (sample_offset z) else None.
Definition sample_fromutc_utcoffset (z : string) (_ : Z) : Z := sample_offset z.
Definition sample_system_utcoffset (_ : date) (_ : time) : Z := 0.

Definition new_york : tzinfo := mktz "America/New_York" (-5 * HOUR).
Definition paris : tzinfo := mktz "Europe/Paris" HOUR.

Definition sample_conf : Conf := mkConf "%Y-%m-%d" "%H:%M" new_york.



(** An editor on a timed event in New York, and one on an all-day event. *)
Definition timed_sample : StartEndEditor :=
  init (DT (mkdatetime (date_ymd 2024 1 1) (mktime 9 0 0 0) (Some new_york)))
       (DT (mkdatetime (date_ymd 2024 1 1) (mktime 10 0 0 0) (Some new_york)))
       sample_conf.

Definition allday_sample : StartEndEditor :=
  init (D (date_ymd 2024 3 1)) (D (date_ymd 2024 3 2)) sample_conf.

(** The all-day editor after its start date was edited: the stored start
    is a datetime, the stored end still a plain date. *)
Definition allday_edited_sample : StartEndEditor :=
  set_startdt (DT (mkdatetime (date_ymd 2024 3 5) time0 (Some new_york)))
              allday_sample.

(** An all-day editor whose default timezone is Paris. *)
Definition paris_allday_sample : StartEndEditor :=
  init (D (date_ymd 2024 3 1)) (D (date_ymd 2024 3 2))
       (mkConf "%Y-%m-%d" "%H:%M" paris).

(** A timed editor on the evening of the last day of the calendar. *)
Definition last_day_sample : StartEndEditor :=
  init (DT (mkdatetime (date_ymd 9999 12 31) (mktime 18 59 0 0) (Some new_york)))
       (DT (mkdatetime (date_ymd 9999 12 31) (mktime 18 59 0 0) (Some new_york)))
       sample_conf.

(** [try: body except ValueError: handler]; the handler runs in the state
    the body had reached when it raised. *)
Definition try_except_ValueError {A} (body handler : M A) : M A :=
  fun s => match body s with
           | Raised ValueError s' => handler s'
           | o => o
           end.

Section Editor.

(** What the code takes from outside this file. *)

(** [datetime.strptime(text, format)]; [None] stands for its [ValueError]. *)
Variable strptime : string -> string -> option datetime.

(** The UTC offset pytz's [localize] settles on for a wall-clock reading
    in a zone; [None] where its search around the reading leaves the dates
    Python can build and ends in [OverflowError]. *)
Variable localize_utcoffset : string -> date -> time -> option Z.

(** The UTC offset in force in a zone at a UTC instant (pytz's [fromutc]). *)
Variable fromutc_utcoffset : string -> Z -> Z.

(** The UTC offset of the system's local time at a wall-clock reading,
    which [astimezone] presumes for a naive datetime. *)
Variable system_utcoffset : date -> time -> Z.

(** The zone picked in the timezone chooser.  [_get_chosen_timezone] has
    no body beyond a debugger breakpoint, so its result is taken as given. *)
Variable chosen_timezone : tzinfo.

Definition py_strptime (text format : string) : res datetime :=
  match strptime text format with
  | Some v => inr v
  | None => inl ValueError
  end.

(** [tz.localize(dt)] of pytz: refuses a datetime that already has a
    tzinfo, otherwise attaches the zone at the offset it has at that
    wall-clock reading, or raises [OverflowError]. *)
Definition localize (tz : tzinfo) (dt : datetime) : res datetime :=
  match dt_tzinfo dt with
  | Some _ => inl ValueError
  | None =>
      match localize_utcoffset (zone tz) (dt_date dt) (dt_time dt) with
      | Some off =>
          inr (mkdatetime (dt_date dt) (dt_time dt) (Some (mktz (zone tz) off)))
      | None => inl OverflowError
      end
  end.

(** The instant a datetime stands for when [astimezone] converts it. *)
Definition utc_of (dt : datetime) : Z :=
  match dt_tzinfo dt with
  | Some tz => instant dt tz
  | None =>
      wallclock (dt_date dt) (dt_time dt)
      - system_utcoffset (dt_date dt) (dt_time dt)
  end.

(** [dt.astimezone(tz)] with a [tz] other than the tzinfo of [dt]: the
    reading is first taken to UTC, [dt - offset], and [tz.fromutc] then adds
    the offset of [tz] at that instant; either step raises [OverflowError]
    when it leaves the readings a datetime can hold. *)
Definition datetime_astimezone (dt : datetime) (tz : tzinfo) : res datetime :=
  match checked (utc_of dt) with
  | inl e => inl e
  | inr u =>
      let off := fromutc_utcoffset (zone tz) u in
      match checked (u + off) with
      | inl e => inl e
      | inr w =>
          inr (mkdatetime (date_of_wallclock w) (time_of_wallclock w)
                          (Some (mktz (zone tz) off)))
      end
  end.

(** [x.astimezone(tz)]: a [date] has no such method. *)
Definition astimezone (x : moment) (tz : tzinfo) : res moment :=
  match x with
  | DT dt =>
      match datetime_astimezone dt tz with
      | inr dt' => inr (DT dt')
      | inl e => inl e
      end
  | D _ => inl AttributeError
  end.

(** The datetime can be shown in the zone of [tz]: the conversion stays
    within the readings a datetime can hold. *)
Definition showable (dt : datetime) (tz : tzinfo) : bool :=
  in_range (utc_of dt)
  && in_range (utc_of dt + fromutc_utcoffset (zone tz) (utc_of dt)).

(** The [localize_start] and [localize_end] properties. *)
Definition localize_start (s : StartEndEditor) : datetime -> res datetime :=
  localize (timezone_start s).
Definition localize_end (s : StartEndEditor) : datetime -> res datetime :=
  localize (timezone_end s).

Definition _get_chosen_timezone : M tzinfo := ret chosen_timezone.

Open Scope editor_scope.

(** The validators return the parsed value, or [False] (here [None]) when
    a [ValueError] was caught; any other exception leaves them. *)
Definition _validate_start_time (text : string) : M (option datetime) :=
  try_except_ValueError
    (s <- get;;
     startval <- lift (py_strptime text (timeformat (conf s)));;
     let f := localize_start s in
     d <- lift (date_method (_startdt s));;
     v <- lift (f (combine d (dt_time startval)));;
     modify (set_startdt (DT v));;
     ret (Some startval))
    (ret None).

Definition _validate_start_date (text : string) : M (option datetime) :=
  try_except_ValueError
    (s <- get;;
     startval <- lift (py_strptime text (longdateformat (conf s)));;
     let f := localize_start s in
     v <- lift (f (combine (dt_date startval) (_start_time s)));;
     modify (set_startdt (DT v));;
     ret (Some startval))
    (ret None).

Definition _validate_end_time (text : string) : M (option datetime) :=
  try_except_ValueError
    (s <- get;;
     endval <- lift (py_strptime text (timeformat (conf s)));;
     let f := localize_end s in
     d <- lift (date_method (_enddt s));;
     v <- lift (f (combine d (dt_time endval)));;
     modify (set_enddt (DT v));;
     ret (Some endval))
    (ret None).

Definition _validate_end_date (text : string) : M (option datetime) :=
  try_except_ValueError
    (s <- get;;
     endval <- lift (py_strptime text (longdateformat (conf s)));;
     let f := localize_end s in
     v <- lift (f (combine (dt_date endval) (_end_time s)));;
     modify (set_enddt (DT v));;
     ret (Some endval))
    (ret None).

(** [toggle_allday(checkbox, state)]; the checkbox is not used. *)
Definition toggle_allday (state : bool) : M unit :=
  s <- get;;
  (if allday s && negb state then
     modify (set_startdt (DT (combine (date_fields (_startdt s)) time0)));;
     modify (set_enddt (DT (combine (date_fields (_enddt s)) time0)))
   else if negb (allday s) && state then
     d <- lift (date_method (_startdt s));;
     modify (set_startdt (D d));;
     d' <- lift (date_method (_enddt s));;
     modify (set_enddt (D d'))
   else ret tt);;
  modify (set_allday state);;
  rebuild.

(** [toggle_tz(checkbox, state)]; the closing [set_focus] only moves the
    focus within the rebuilt widgets. *)
Definition toggle_tz (state : bool) : M unit :=
  s <- get;;
  (if negb (_tz_state s) && state then
     tz <- _get_chosen_timezone;;
     v <- lift (astimezone (_startdt s) tz);;
     modify (set_startdt v);;
     tz' <- _get_chosen_timezone;;
     v' <- lift (astimezone (_enddt s) tz');;
     modify (set_enddt v')
   else if _tz_state s && negb state then
     v <- lift (astimezone (_startdt s) (default_timezone (conf s)));;
     modify (set_startdt v);;
     v' <- lift (astimezone (_enddt s) (default_timezone (conf s)));;
     modify (set_enddt v')
   else ret tt);;
  modify (set_tz_state state);;
  rebuild.

(** The calls the widgets can make on the editor. *)
Inductive op :=
| StartDate (text : string)
| StartTime (text : string)
| EndDate (text : string)
| EndTime (text : string)
| ToggleAllday (state : bool)
| ToggleTz (state : bool).

(** The state a call leaves behind, whether it returned or raised. *)
Definition step (s : StartEndEditor) (o : op) : StartEndEditor :=
  match o with
  | StartDate text => state_after (_validate_start_date text s)
  | StartTime text => state_after (_validate_start_time text s)
  | EndDate text => state_after (_validate_end_date text s)
  | EndTime text => state_after (_validate_end_time text s)
  | ToggleAllday b => state_after (toggle_allday b s)
  | ToggleTz b => state_after (toggle_tz b s)
  end.

Definition run (s : StartEndEditor) (ops : list op) : StartEndEditor :=
  fold_left step ops s.

(** [x.strftime(format)] *)
Variable strftime : moment -> string -> string.





Definition is_toggle_allday (o : op) : bool :=
  match o with ToggleAllday _ => true | _ => false end.

(** ** Properties *)

Ltac run_method :=
  unfold _validate_start_date, _validate_start_time, _validate_end_date,
    _validate_end_time, toggle_allday, toggle_tz, _get_chosen_timezone,
    rebuild, try_except_ValueError, bind, get, modify, lift, ret,
    py_strptime, localize_start, localize_end, localize; simpl.

Ltac split_matches :=
  repeat match goal with
         | |- context [match ?x with _ => _ end] =>
             lazymatch x with
             | context [match _ with _ => _ end] => fail
             | _ => destruct x eqn:?; simpl
             end
         end.

(** C1.  Text that does not parse against the format of the edited field
    makes each of the four validators return the failure value ([False],
    here [None]) and leaves the whole editor, so the stored start and end,
    as it was. *)
Theorem invalid_format_is_noop (s : StartEndEditor) (text : string) :
  (strptime text (longdateformat (conf s)) = None ->
   _validate_start_date text s = Returned None s /\
   _validate_end_date text s = Returned None s) /\
  (strptime text (timeformat (conf s)) = None ->
   _validate_start_time text s = Returned None s /\
   _validate_end_time text s = Returned None s).
Proof.
  split; intros Hparse; split; run_method; rewrite Hparse; reflexivity.
Qed.

Lemma zone_timezone_start (s : StartEndEditor) :
  zone (timezone_start s) = zone_or_default (startdt s) (conf s).
Proof.
  unfold timezone_start, zone_or_default.
  destruct (getattr_tzinfo (startdt s)); reflexivity.
Qed.

Lemma zone_timezone_end (s : StartEndEditor) :
  zone (timezone_end s) = zone_or_default (enddt s) (conf s).
Proof.
  unfold timezone_end, zone_or_default.
  destruct (getattr_tzinfo (enddt s)); reflexivity.
Qed.

(** C2, amended.  A date string that parses against the long date format,
    and whose date pytz can place in the zone of the start at the time of
    day of the start, makes [_validate_start_date] return the parsed value
    and store a start whose date is the parsed date, whose time of day is
    the one the stored start had (midnight when it had none), and whose zone
    is the one of the start as [startdt] shows it (the default timezone when
    it has none). *)
Theorem validate_start_date_parsed
    (s : StartEndEditor) (text : string) (v : datetime) (off : Z) :
  strptime text (longdateformat (conf s)) = Some v ->
  localize_utcoffset (zone_or_default (startdt s) (conf s))
                     (dt_date v) (_start_time s) = Some off ->
  exists new tz,
    _validate_start_date text s = Returned (Some v) (set_startdt (DT new) s) /\
    dt_date new = dt_date v /\
    dt_time new = match _startdt s with
                  | DT old => dt_time old
                  | D _ => time0
                  end /\
    dt_tzinfo new = Some tz /\
    zone tz = zone_or_default (startdt s) (conf s).
Proof.
  intros Hparse Hloc. run_method. rewrite Hparse. simpl.
  rewrite zone_timezone_start, Hloc. simpl.
  eexists. eexists. split; [reflexivity|]. simpl.
  repeat split.
  unfold _start_time. destruct (_startdt s); reflexivity.
Qed.

(** C3, amended.  On a stored moment that is a plain date, a time
    validator returns the failure value for text that does not parse and
    raises [AttributeError] for text that does, the editor unchanged in
    both cases; the default of the missing time of day to midnight is that
    of the date validators, which on text that parses to a date pytz can
    place in the default timezone store that date at midnight. *)
Theorem validation_on_plain_date (s : StartEndEditor) (text : string) :
  let z := zone (default_timezone (conf s)) in
  (forall d, _startdt s = D d ->
     _validate_start_time text s =
       match strptime text (timeformat (conf s)) with
       | None => Returned None s
       | Some _ => Raised AttributeError s
       end /\
     forall v off,
       strptime text (longdateformat (conf s)) = Some v ->
       localize_utcoffset z (dt_date v) time0 = Some off ->
       _validate_start_date text s =
         Returned (Some v)
           (set_startdt
              (DT (mkdatetime (dt_date v) time0 (Some (mktz z off)))) s)) /\
  (forall d, _enddt s = D d ->
     _validate_end_time text s =
       match strptime text (timeformat (conf s)) with
       | None => Returned None s
       | Some _ => Raised AttributeError s
       end /\
     forall v off,
       strptime text (longdateformat (conf s)) = Some v ->
       localize_utcoffset z (dt_date v) time0 = Some off ->
       _validate_end_date text s =
         Returned (Some v)
           (set_enddt
              (DT (mkdatetime (dt_date v) time0 (Some (mktz z off)))) s)).
Proof.
  intros z; split; intros d Hd; split.
  - run_method.
    destruct (strptime text (timeformat (conf s))); simpl; [|reflexivity].
    rewrite Hd. reflexivity.
  - intros v off Hparse Hloc. run_method. rewrite Hparse. simpl.
    unfold _start_time, timezone_start, startdt. rewrite Hd. simpl.
    rewrite andb_false_r. simpl. subst z. rewrite Hloc. reflexivity.
  - run_method.
    destruct (strptime text (timeformat (conf s))); simpl; [|reflexivity].
    rewrite Hd. reflexivity.
  - intros v off Hparse Hloc. run_method. rewrite Hparse. simpl.
    unfold _end_time, timezone_end, enddt. rewrite Hd. simpl.
    rewrite andb_false_r. simpl. subst z. rewrite Hloc. reflexivity.
Qed.

(** C9.  [toggle_allday] called with the current [allday] and [toggle_tz]
    called with the current [_tz_state] return with the editor, so the
    stored start and end, exactly as it was. *)
Theorem toggle_same_state_is_noop (s : StartEndEditor) :
  toggle_allday (allday s) s = Returned tt s /\
  toggle_tz (_tz_state s) s = Returned tt s.
Proof.
  destruct s as [a t c st os en oe]; destruct a, t; split; reflexivity.
Qed.

(** C10.  Whatever the text, and whether the call returns or raises, the
    validators of the start fields leave the stored end, both flags, the
    configuration and both original values untouched, and the validators
    of the end fields do the same with the stored start. *)
Theorem validation_frame (s : StartEndEditor) (text : string) :
  only_start_differs s (state_after (_validate_start_date text s)) /\
  only_start_differs s (state_after (_validate_start_time text s)) /\
  only_end_differs s (state_after (_validate_end_date text s)) /\
  only_end_differs s (state_after (_validate_end_time text s)).
Proof.
  unfold only_start_differs, only_end_differs.
  split; [|split; [|split]]; run_method; split_matches; repeat split.
Qed.

(** C7.  From a timed state, [toggle_allday(True)] followed by
    [toggle_allday(False)] returns both times and leaves a start and an end
    with the dates they had before and midnight as time of day, whatever
    time of day they had. *)
Theorem allday_round_trip_is_midnight (s : StartEndEditor) (a b : datetime) :
  allday s = false -> _startdt s = DT a -> _enddt s = DT b ->
  exists s1 s2,
    toggle_allday true s = Returned tt s1 /\
    toggle_allday false s1 = Returned tt s2 /\
    _startdt s2 = DT (mkdatetime (dt_date a) time0 None) /\
    _enddt s2 = DT (mkdatetime (dt_date b) time0 None) /\
    allday s2 = false.
Proof.
  intros Hallday Hstart Hend.
  destruct s as [al t c st os en oe]; simpl in *; subst.
  eexists. eexists. split; [reflexivity|].
  split; [reflexivity|]. simpl. repeat split.
Qed.

(** *** Conversions between zones *)

Lemma micros_time_of_micros (m : Z) : micros (time_of_micros m) = m.
Proof.
  unfold micros, time_of_micros; simpl.
  Z.div_mod_to_equations. lia.
Qed.

Lemma wallclock_of_wallclock (w : Z) :
  wallclock (date_of_wallclock w) (time_of_wallclock w) = w.
Proof.
  unfold wallclock, date_of_wallclock, time_of_wallclock; simpl.
  rewrite micros_time_of_micros. unfold DAY.
  Z.div_mod_to_equations. lia.
Qed.

Lemma utc_of_aware (dt : datetime) (tz : tzinfo) :
  dt_tzinfo dt = Some tz -> utc_of dt = instant dt tz.
Proof. intros H. unfold utc_of. rewrite H. reflexivity. Qed.

Lemma astimezone_inr (dt dt' : datetime) (tz : tzinfo) :
  datetime_astimezone dt tz = inr dt' ->
  exists tz', dt_tzinfo dt' = Some tz' /\
              zone tz' = zone tz /\
              instant dt' tz' = utc_of dt.
Proof.
  unfold datetime_astimezone, checked.
  destruct (in_range (utc_of dt)); [|discriminate].
  destruct (in_range (utc_of dt + fromutc_utcoffset (zone tz) (utc_of dt)));
    [|discriminate].
  intros H; injection H as <-.
  eexists. split; [reflexivity|]. split; [reflexivity|].
  unfold instant; simpl. rewrite wallclock_of_wallclock. lia.
Qed.


Lemma astimezone_showable (dt : datetime) (tz : tzinfo) :
  showable dt tz = true -> exists dt', datetime_astimezone dt tz = inr dt'.
Proof.
  unfold showable, datetime_astimezone, checked. intros H.
  apply andb_true_iff in H as [H1 H2]. rewrite H1, H2. eexists; reflexivity.
Qed.

Lemma showable_same_instant (x y : datetime) (tz : tzinfo) :
  utc_of x = utc_of y -> showable x tz = showable y tz.
Proof. unfold showable. intros ->. reflexivity. Qed.

Lemma toggle_tz_on (s : StartEndEditor) (a b a' b' : datetime) :
  _tz_state s = false -> _startdt s = DT a -> _enddt s = DT b ->
  datetime_astimezone a chosen_timezone = inr a' ->
  datetime_astimezone b chosen_timezone = inr b' ->
  toggle_tz true s
  = Returned tt (set_tz_state true (set_enddt (DT b') (set_startdt (DT a') s))).
Proof.
  intros Ht Hs He Ha Hb. run_method. rewrite Ht, Hs, He. simpl.
  rewrite Ha. simpl. rewrite Hb. reflexivity.
Qed.

Lemma toggle_tz_off (s : StartEndEditor) (a b a' b' : datetime) :
  _tz_state s = true -> _startdt s = DT a -> _enddt s = DT b ->
  datetime_astimezone a (default_timezone (conf s)) = inr a' ->
  datetime_astimezone b (default_timezone (conf s)) = inr b' ->
  toggle_tz false s
  = Returned tt (set_tz_state false (set_enddt (DT b') (set_startdt (DT a') s))).
Proof.
  intros Ht Hs He Ha Hb. run_method. rewrite Ht, Hs, He. simpl.
  rewrite Ha. simpl. rewrite Hb. reflexivity.
Qed.

(** C8, amended.  With a start and an end that are aware datetimes and can
    be shown both in the chosen zone and in the default timezone,
    [toggle_tz(True)] followed by [toggle_tz(False)] returns both times and
    leaves a start and an end that are aware datetimes at the instants they
    had before. *)
Theorem tz_round_trip_preserves_instant
    (s : StartEndEditor) (a b : datetime) (za zb : tzinfo) :
  _startdt s = DT a -> _enddt s = DT b ->
  dt_tzinfo a = Some za -> dt_tzinfo b = Some zb ->
  showable a chosen_timezone = true -> showable b chosen_timezone = true ->
  showable a (default_timezone (conf s)) = true ->
  showable b (default_timezone (conf s)) = true ->
  exists s1 s2 a' b' za' zb',
    toggle_tz true s = Returned tt s1 /\
    toggle_tz false s1 = Returned tt s2 /\
    _startdt s2 = DT a' /\ dt_tzinfo a' = Some za' /\
    instant a' za' = instant a za /\
    _enddt s2 = DT b' /\ dt_tzinfo b' = Some zb' /\
    instant b' zb' = instant b zb.
Proof.
  intros Hs He Ha Hb Sac Sbc Sad Sbd.
  destruct (_tz_state s) eqn:Ht.
  - destruct (astimezone_showable _ _ Sad) as [a1 Ha1].
    destruct (astimezone_showable _ _ Sbd) as [b1 Hb1].
    destruct (astimezone_inr _ _ _ Ha1) as (za' & Hza & _ & Hia).
    destruct (astimezone_inr _ _ _ Hb1) as (zb' & Hzb & _ & Hib).
    exists s, (set_tz_state false (set_enddt (DT b1) (set_startdt (DT a1) s))),
      a1, b1, za', zb'.
    split.
    { rewrite <- Ht at 1.
      destruct s as [al t c st os en oe]; simpl in Ht; subst t; reflexivity. }
    split; [apply (toggle_tz_off s a b); assumption|]. simpl.
    rewrite Hia, Hib, (utc_of_aware _ _ Ha), (utc_of_aware _ _ Hb).
    repeat split; assumption.
  - destruct (astimezone_showable _ _ Sac) as [a1 Ha1].
    destruct (astimezone_showable _ _ Sbc) as [b1 Hb1].
    destruct (astimezone_inr _ _ _ Ha1) as (za1 & Hza1 & _ & Hia1).
    destruct (astimezone_inr _ _ _ Hb1) as (zb1 & Hzb1 & _ & Hib1).
    assert (Ua : utc_of a1 = utc_of a)
      by (rewrite (utc_of_aware _ _ Hza1); exact Hia1).
    assert (Ub : utc_of b1 = utc_of b)
      by (rewrite (utc_of_aware _ _ Hzb1); exact Hib1).
    rewrite <- (showable_same_instant _ _ _ Ua) in Sad.
    rewrite <- (showable_same_instant _ _ _ Ub) in Sbd.
    destruct (astimezone_showable _ _ Sad) as [a2 Ha2].
    destruct (astimezone_showable _ _ Sbd) as [b2 Hb2].
    destruct (astimezone_inr _ _ _ Ha2) as (za' & Hza & _ & Hia).
    destruct (astimezone_inr _ _ _ Hb2) as (zb' & Hzb & _ & Hib).
    exists (set_tz_state true (set_enddt (DT b1) (set_startdt (DT a1) s))),
      (set_tz_state false (set_enddt (DT b2) (set_startdt (DT a2) s))),
      a2, b2, za', zb'.
    split; [apply (toggle_tz_on s a b); assumption|].
    split.
    { rewrite (toggle_tz_off _ a1 b1 a2 b2); try reflexivity; assumption. }
    simpl. rewrite Hia, Hib, Ua, Ub, (utc_of_aware _ _ Ha), (utc_of_aware _ _ Hb).
    repeat split; assumption.
Qed.

(** *** What every reachable state satisfies *)

Lemma step_conf (s : StartEndEditor) (o : op) : conf (step s o) = conf s.
Proof.
  destruct o; unfold step; run_method; split_matches; reflexivity.
Qed.

Lemma step_timed_has_datetimes (s : StartEndEditor) (o : op) :
  timed_has_datetimes s -> timed_has_datetimes (step s o).
Proof.
  unfold timed_has_datetimes.
  destruct s as [al t c st os en oe]; simpl.
  destruct o, al, t, st, en; unfold step; run_method; intros H;
    try (destruct state); simpl; split_matches; simpl; intros H';
    try discriminate; try (split; reflexivity);
    try (destruct (H eq_refl); discriminate);
    try (apply H; reflexivity).
Qed.

Lemma run_conf (ops : list op) (s : StartEndEditor) :
  conf (run s ops) = conf s.
Proof.
  unfold run. revert s; induction ops as [|o ops IH]; intros s; simpl;
    [reflexivity|].
  rewrite IH. apply step_conf.
Qed.

Lemma run_timed_has_datetimes (ops : list op) (s : StartEndEditor) :
  timed_has_datetimes s -> timed_has_datetimes (run s ops).
Proof.
  unfold run. revert s; induction ops as [|o ops IH]; intros s H; simpl;
    [exact H|].
  apply IH. apply step_timed_has_datetimes. exact H.
Qed.

Lemma init_timed_has_datetimes (start end_ : moment) (c : Conf) :
  isinstance_datetime start = isinstance_datetime end_ ->
  timed_has_datetimes (init start end_ c).
Proof.
  unfold timed_has_datetimes, init; simpl. intros Hkind Hallday.
  rewrite <- Hkind. destruct (isinstance_datetime start);
    [split; reflexivity | discriminate].
Qed.

(** C4, amended.  After any sequence of validator and toggle calls on an
    editor built from a start and an end of the same kind: in all-day mode
    [startdt] and [enddt] are plain dates, without time of day or tzinfo;
    in timed mode both are datetimes, and the timezone of each is its own
    when it has a tzinfo and the default timezone when it is naive, as it
    is after [toggle_allday(False)]; and in either mode the two are of the
    same kind. *)
Theorem representation_invariant
    (start end_ : moment) (c : Conf) (ops : list op) :
  isinstance_datetime start = isinstance_datetime end_ ->
  let s := run (init start end_ c) ops in
  (allday s = true ->
   exists d d', startdt s = D d /\ enddt s = D d' /\
                getattr_tzinfo (startdt s) = None /\
                getattr_tzinfo (enddt s) = None) /\
  (allday s = false ->
   exists a b, startdt s = DT a /\ enddt s = DT b /\
               timezone_start s = match dt_tzinfo a with
                                  | Some tz => tz
                                  | None => default_timezone c
                                  end /\
               timezone_end s = match dt_tzinfo b with
                                | Some tz => tz
                                | None => default_timezone c
                                end) /\
  isinstance_datetime (startdt s) = isinstance_datetime (enddt s).
Proof.
  intros Hkind s.
  pose proof (run_timed_has_datetimes ops _
                (init_timed_has_datetimes start end_ c Hkind)) as Hinv.
  pose proof (run_conf ops (init start end_ c)) as Hconf.
  fold s in Hinv, Hconf. simpl in Hconf.
  unfold timed_has_datetimes in Hinv.
  unfold timezone_start, timezone_end, startdt, enddt.
  rewrite Hconf. clearbody s.
  destruct (allday s).
  - split; [intros _ | split; [discriminate|]];
      destruct (_startdt s), (_enddt s); simpl; eauto 10.
  - destruct (Hinv eq_refl) as [Hs He].
    destruct (_startdt s); [discriminate|].
    destruct (_enddt s); [discriminate|]. simpl.
    split; [discriminate|]. split; [|reflexivity].
    intros _. eauto 10.
Qed.

(** *** The queries *)




(** ** Further properties of the validators *)

(** X1.  Text that parses against the time format makes a time validator,
    called on a stored datetime, return the parsed value and store a
    datetime with the old date, the parsed time of day and the zone of the
    moment as its property shows it (the default timezone when it has
    none); where pytz cannot place that reading in the zone the validator
    raises [OverflowError] and the editor is as it was. *)
Theorem validate_time_parsed
    (s : StartEndEditor) (text : string) (v : datetime) :
  strptime text (timeformat (conf s)) = Some v ->
  (forall old, _startdt s = DT old ->
     let z := zone_or_default (startdt s) (conf s) in
     _validate_start_time text s =
       match localize_utcoffset z (dt_date old) (dt_time v) with
       | Some off =>
           Returned (Some v)
             (set_startdt
                (DT (mkdatetime (dt_date old) (dt_time v) (Some (mktz z off))))
                s)
       | None => Raised OverflowError s
       end) /\
  (forall old, _enddt s = DT old ->
     let z := zone_or_default (enddt s) (conf s) in
     _validate_end_time text s =
       match localize_utcoffset z (dt_date old) (dt_time v) with
       | Some off =>
           Returned (Some v)
             (set_enddt
                (DT (mkdatetime (dt_date old) (dt_time v) (Some (mktz z off))))
                s)
       | None => Raised OverflowError s
       end).
Proof.
  intros Hparse; split; intros old Hold z; run_method; rewrite Hparse; simpl;
    rewrite Hold; simpl.
  - rewrite zone_timezone_start. fold z.
    destruct (localize_utcoffset z (dt_date old) (dt_time v)); reflexivity.
  - rewrite zone_timezone_end. fold z.
    destruct (localize_utcoffset z (dt_date old) (dt_time v)); reflexivity.
Qed.

(** X2.  Text that parses against the long date format makes
    [_validate_end_date] return the parsed value and store an end with the
    parsed date, the time of day the stored end had (midnight for a plain
    date) and the zone of the end as [enddt] shows it; where pytz cannot
    place that reading in the zone the validator raises [OverflowError] and
    the editor is as it was. *)
Theorem validate_end_date_parsed
    (s : StartEndEditor) (text : string) (v : datetime) :
  strptime text (longdateformat (conf s)) = Some v ->
  let z := zone_or_default (enddt s) (conf s) in
  let t := match _enddt s with DT old => dt_time old | D _ => time0 end in
  _validate_end_date text s =
    match localize_utcoffset z (dt_date v) t with
    | Some off =>
        Returned (Some v)
          (set_enddt (DT (mkdatetime (dt_date v) t (Some (mktz z off)))) s)
    | None => Raised OverflowError s
    end.
Proof.
  intros Hparse z t. run_method. rewrite Hparse. simpl.
  rewrite zone_timezone_end. fold z.
  replace (_end_time s) with t
    by (unfold t, _end_time; destruct (_enddt s); reflexivity).
  destruct (localize_utcoffset z (dt_date v) t); reflexivity.
Qed.

Ltac idempotent_call Hp :=
  simpl; rewrite ?Hp; simpl; try reflexivity;
  unfold timezone_start, timezone_end, startdt, enddt,
    _start_time, _end_time; simpl;
  match goal with
  | |- context [localize_utcoffset ?z ?d ?t] =>
      let Hl := fresh "Hl" in
      destruct (localize_utcoffset z d t) eqn:Hl; simpl;
      rewrite ?Hp; simpl; rewrite ?Hl; reflexivity
  end.

(** X3.  Validating the same text a second time changes nothing: each
    validator, called again on the state its first call left, ends as the
    first call did, with the same result and the same state. *)
Theorem validation_idempotent (s : StartEndEditor) (text : string) :
  _validate_start_date text (state_after (_validate_start_date text s))
  = _validate_start_date text s /\
  _validate_start_time text (state_after (_validate_start_time text s))
  = _validate_start_time text s /\
  _validate_end_date text (state_after (_validate_end_date text s))
  = _validate_end_date text s /\
  _validate_end_time text (state_after (_validate_end_time text s))
  = _validate_end_time text s.
Proof.
  destruct s as [al t c st os en oe].
  split; [|split; [|split]]; run_method.
  - destruct (strptime text (longdateformat c)) eqn:Hp; simpl;
      rewrite ?Hp; simpl; [|reflexivity].
    destruct al, st as [pd|[dd dtm [tz|]]]; idempotent_call Hp.
  - destruct (strptime text (timeformat c)) eqn:Hp; simpl;
      rewrite ?Hp; simpl; [|reflexivity].
    destruct al, st as [pd|[dd dtm [tz|]]]; idempotent_call Hp.
  - destruct (strptime text (longdateformat c)) eqn:Hp; simpl;
      rewrite ?Hp; simpl; [|reflexivity].
    destruct al, en as [pd|[dd dtm [tz|]]]; idempotent_call Hp.
  - destruct (strptime text (timeformat c)) eqn:Hp; simpl;
      rewrite ?Hp; simpl; [|reflexivity].
    destruct al, en as [pd|[dd dtm [tz|]]]; idempotent_call Hp.
Qed.

(** X4.  A validation of a start field and a validation of an end field do
    not interfere: in either order they leave the same state. *)
Theorem start_end_validations_commute (s : StartEndEditor) (t1 t2 : string) :
  state_after (_validate_end_date t2 (state_after (_validate_start_date t1 s)))
  = state_after (_validate_start_date t1 (state_after (_validate_end_date t2 s)))
  /\
  state_after (_validate_end_time t2 (state_after (_validate_start_date t1 s)))
  = state_after (_validate_start_date t1 (state_after (_validate_end_time t2 s)))
  /\
  state_after (_validate_end_date t2 (state_after (_validate_start_time t1 s)))
  = state_after (_validate_start_time t1 (state_after (_validate_end_date t2 s)))
  /\
  state_after (_validate_end_time t2 (state_after (_validate_start_time t1 s)))
  = state_after (_validate_start_time t1 (state_after (_validate_end_time t2 s))).
Proof.
  destruct s as [al t c st os en oe].
  split; [|split; [|split]]; run_method;
    destruct (strptime t1 (longdateformat c)) eqn:Hd1;
    destruct (strptime t1 (timeformat c)) eqn:Ht1;
    destruct (strptime t2 (longdateformat c)) eqn:Hd2;
    destruct (strptime t2 (timeformat c)) eqn:Ht2;
    simpl; rewrite ?Hd1, ?Ht1, ?Hd2, ?Ht2; simpl;
    destruct al, st as [sd|[sd stm [stz|]]], en as [ed|[ed etm [etz|]]];
    simpl; rewrite ?Hd1, ?Ht1, ?Hd2, ?Ht2; simpl; try reflexivity;
    unfold timezone_start, timezone_end, startdt, enddt,
      _start_time, _end_time; simpl;
    repeat first
      [ match goal with
        | H : localize_utcoffset ?z ?d ?t = _
          |- context [localize_utcoffset ?z ?d ?t] => rewrite H; simpl
        end
      | match goal with
        | |- context [localize_utcoffset ?z ?d ?t] =>
            destruct (localize_utcoffset z d t) eqn:?; simpl;
            rewrite ?Hd1, ?Ht1, ?Hd2, ?Ht2; simpl
        end ];
    reflexivity.
Qed.

(** ** Further properties of the toggles *)

(** X5.  From all-day mode, [toggle_allday(False)] followed by
    [toggle_allday(True)] returns both times and shows the same dates as
    before; when the stored start and end were plain dates the editor is
    exactly as it was. *)
Theorem timed_round_trip_keeps_dates (s : StartEndEditor) :
  allday s = true ->
  exists s1 s2,
    toggle_allday false s = Returned tt s1 /\
    toggle_allday true s1 = Returned tt s2 /\
    allday s2 = true /\
    startdt s2 = startdt s /\ enddt s2 = enddt s /\
    (isinstance_datetime (_startdt s) = false ->
     isinstance_datetime (_enddt s) = false -> s2 = s).
Proof.
  intros Hall. destruct s as [al t c st os en oe]; simpl in Hall; subst al.
  do 2 eexists. split; [reflexivity|]. split; [reflexivity|]. simpl.
  split; [reflexivity|].
  unfold startdt, enddt; simpl.
  destruct st, en; simpl; repeat split; intros; try discriminate; reflexivity.
Qed.








(** *** More of what every reachable state satisfies *)

Lemma step_originals (s : StartEndEditor) (o : op) :
  _original_start (step s o) = _original_start s /\
  _original_end (step s o) = _original_end s.
Proof.
  destruct o; unfold step; run_method; split_matches; split; reflexivity.
Qed.

Lemma run_originals (ops : list op) (s : StartEndEditor) :
  _original_start (run s ops) = _original_start s /\
  _original_end (run s ops) = _original_end s.
Proof.
  unfold run. revert s; induction ops as [|o ops IH]; intros s; simpl;
    [split; reflexivity|].
  destruct (IH (step s o)) as [H1 H2]. destruct (step_originals s o) as [H3 H4].
  rewrite H1, H2, H3, H4. split; reflexivity.
Qed.

(** X9.  Once the mode of the editor differs from the one it was built in,
    [changed] is true, whatever was edited since: a plain date and a
    datetime are never equal. *)
Theorem mode_change_is_a_change
    (start end_ : moment) (c : Conf) (ops : list op) :
  isinstance_datetime start = isinstance_datetime end_ ->
  let s := run (init start end_ c) ops in
  allday s = isinstance_datetime start -> changed s = true.
Proof.
  intros Hkind s Hmode.
  pose proof (run_timed_has_datetimes ops _
                (init_timed_has_datetimes start end_ c Hkind)) as Hinv.
  destruct (run_originals ops (init start end_ c)) as [Hos _].
  fold s in Hinv, Hos. simpl in Hos. clearbody s.
  unfold changed, py_ne, startdt. rewrite Hos.
  unfold timed_has_datetimes in Hinv.
  destruct (allday s); symmetry in Hmode.
  - destruct start; [discriminate|].
    destruct (_startdt s); reflexivity.
  - destruct (Hinv eq_refl) as [Hs _].
    destruct start; [|discriminate].
    destruct (_startdt s); [discriminate|]. reflexivity.
Qed.

Lemma aware_astimezone (a a' : datetime) (tz : tzinfo) :
  datetime_astimezone a tz = inr a' -> aware (DT a') = true.
Proof.
  intros H. destruct (astimezone_inr _ _ _ H) as (tz' & Htz & _).
  simpl. rewrite Htz. reflexivity.
Qed.

Lemma step_keeps_aware (s : StartEndEditor) (o : op) :
  is_toggle_allday o = false ->
  allday s = false /\ aware (_startdt s) = true /\ aware (_enddt s) = true ->
  allday (step s o) = false /\
  aware (_startdt (step s o)) = true /\ aware (_enddt (step s o)) = true.
Proof.
  intros Ho (Hall & Ha & Hb).
  destruct s as [al t c [d|a] os [d'|b] oe]; simpl in *; try discriminate.
  subst al.
  destruct o; try discriminate; unfold step; run_method.
  1-4: split_matches; repeat split; try assumption; reflexivity.
  destruct t, state; simpl; try (repeat split; assumption).
  - destruct (datetime_astimezone a (default_timezone c)) eqn:Ea; simpl;
      [repeat split; assumption|].
    destruct (datetime_astimezone b (default_timezone c)) eqn:Eb; simpl;
      repeat split; try assumption;
      eauto using aware_astimezone.
  - destruct (datetime_astimezone a chosen_timezone) eqn:Ea; simpl;
      [repeat split; assumption|].
    destruct (datetime_astimezone b chosen_timezone) eqn:Eb; simpl;
      repeat split; try assumption;
      eauto using aware_astimezone.
Qed.

(** X10.  An editor built on an aware start and an aware end keeps both
    aware through any sequence of validations and timezone toggles, so
    that [validate] returns a boolean after each of them. *)
Theorem aware_editor_stays_comparable
    (start end_ : moment) (c : Conf) (ops : list op) :
  aware start = true -> aware end_ = true ->
  forallb (fun o => negb (is_toggle_allday o)) ops = true ->
  let s := run (init start end_ c) ops in
  allday s = false /\
  aware (_startdt s) = true /\ aware (_enddt s) = true /\
  exists b, validate s = inr b.
Proof.
  intros Ha Hb Hops s.
  assert (Hinv : allday s = false /\
                 aware (_startdt s) = true /\ aware (_enddt s) = true).
  { subst s. unfold run.
    assert (H0 : allday (init start end_ c) = false /\
                 aware (_startdt (init start end_ c)) = true /\
                 aware (_enddt (init start end_ c)) = true).
    { simpl. destruct start; [discriminate|]. repeat split; assumption. }
    revert H0. generalize (init start end_ c) as s0.
    induction ops as [|o ops IH]; intros s0 H0; simpl; [exact H0|].
    simpl in Hops. apply andb_true_iff in Hops as [Ho Hops].
    apply IH; [exact Hops|].
    apply step_keeps_aware; [|exact H0].
    destruct (is_toggle_allday o); [discriminate|reflexivity]. }
  clearbody s. destruct Hinv as (Hall & Hsa & Hsb).
  repeat split; try assumption.
  unfold validate, startdt, enddt. rewrite Hall. simpl.
  destruct (_startdt s) as [|x]; [discriminate|].
  destruct (_enddt s) as [|y]; [discriminate|]. simpl in *.
  unfold datetime_le.
  destruct (dt_tzinfo x); [|discriminate].
  destruct (dt_tzinfo y); [|discriminate]. eexists; reflexivity.
Qed.

(** X11.  Leaving all-day mode and then editing one field, with text that
    parses to a reading pytz can place in the default timezone, leaves an
    aware datetime beside a naive one, and [validate] raises [TypeError]. *)
Theorem validate_raises_after_leaving_allday
    (s : StartEndEditor) (text : string) :
  allday s = true ->
  let z := zone (default_timezone (conf s)) in
  (forall v off, strptime text (timeformat (conf s)) = Some v ->
     (localize_utcoffset z (date_fields (_startdt s)) (dt_time v) = Some off ->
      validate (run s [ToggleAllday false; StartTime text]) = inl TypeError) /\
     (localize_utcoffset z (date_fields (_enddt s)) (dt_time v) = Some off ->
      validate (run s [ToggleAllday false; EndTime text]) = inl TypeError)) /\
  (forall v off, strptime text (longdateformat (conf s)) = Some v ->
     localize_utcoffset z (dt_date v) time0 = Some off ->
     validate (run s [ToggleAllday false; StartDate text]) = inl TypeError /\
     validate (run s [ToggleAllday false; EndDate text]) = inl TypeError).
Proof.
  intros Hall z. destruct s as [al t c st os en oe]; simpl in *; subst al.
  subst z. split.
  - intros v off Hparse; split; intros Hloc; unfold run; simpl; run_method;
      rewrite Hparse; simpl; unfold timezone_start, timezone_end; simpl;
      rewrite Hloc; reflexivity.
  - intros v off Hparse Hloc; split; unfold run; simpl; run_method;
      rewrite Hparse; simpl;
      unfold timezone_start, timezone_end, _start_time, _end_time; simpl;
      rewrite Hloc; reflexivity.
Qed.

(** ** What the rebuilt widgets can call *)




End Editor.

(** ** The properties at work in the concrete setting *)

Lemma invalid_format_is_noop_witness :
  (_validate_start_date sample_strptime sample_localize_utcoffset
     "25:99" timed_sample = Returned None timed_sample /\
   _validate_end_date sample_strptime sample_localize_utcoffset
     "25:99" timed_sample = Returned None timed_sample) /\
  (_validate_start_time sample_strptime sample_localize_utcoffset
     "25:99" timed_sample = Returned None timed_sample /\
   _validate_end_time sample_strptime sample_localize_utcoffset
     "25:99" timed_sample = Returned None timed_sample).
Proof.
  destruct (invalid_format_is_noop sample_strptime sample_localize_utcoffset
              timed_sample "25:99") as [Hdate Htime].
  split; [apply Hdate | apply Htime]; reflexivity.
Defined.

(** C2 as stated fails: "0001-01-01" parses against the long date format,
    yet pytz cannot place the first day of the calendar in Paris, and the
    validator raises [OverflowError] instead of returning. *)
Lemma validate_start_date_overflows :
  sample_strptime "0001-01-01" (longdateformat (conf paris_allday_sample))
  = Some (mkdatetime (date_ymd 1 1 1) time0 None) /\
  _validate_start_date sample_strptime sample_localize_utcoffset
    "0001-01-01" paris_allday_sample
  = Raised OverflowError paris_allday_sample.
Proof. split; reflexivity. Qed.

Lemma validate_start_date_parsed_witness :
  exists new tz,
    _validate_start_date sample_strptime sample_localize_utcoffset
      "2024-03-01" timed_sample
    = Returned (Some (mkdatetime (date_ymd 2024 3 1) time0 None))
               (set_startdt (DT new) timed_sample) /\
    dt_date new = date_ymd 2024 3 1 /\
    dt_time new = mktime 9 0 0 0 /\
    dt_tzinfo new = Some tz /\
    zone tz = "America/New_York"%string.
Proof.
  apply (validate_start_date_parsed sample_strptime sample_localize_utcoffset
           timed_sample "2024-03-01"
           (mkdatetime (date_ymd 2024 3 1) time0 None) (-5 * HOUR));
    reflexivity.
Defined.

(** C3 as stated fails: on an all-day editor whose start is a plain date,
    validating the start time with text that parses raises
    [AttributeError]. *)
Lemma validate_time_on_plain_date_raises :
  _validate_start_time sample_strptime sample_localize_utcoffset
    "10:30" allday_sample
  = Raised AttributeError allday_sample.
Proof. reflexivity. Qed.

Lemma validation_on_plain_date_witness :
  (_validate_start_time sample_strptime sample_localize_utcoffset
     "10:30" allday_sample = Raised AttributeError allday_sample /\
   _validate_start_date sample_strptime sample_localize_utcoffset
     "2024-03-05" allday_sample
   = Returned (Some (mkdatetime (date_ymd 2024 3 5) time0 None))
       (set_startdt
          (DT (mkdatetime (date_ymd 2024 3 5) time0 (Some new_york)))
          allday_sample)) /\
  (_validate_end_time sample_strptime sample_localize_utcoffset
     "25:99" allday_sample = Returned None allday_sample /\
   _validate_end_date sample_strptime sample_localize_utcoffset
     "2024-03-05" allday_sample
   = Returned (Some (mkdatetime (date_ymd 2024 3 5) time0 None))
       (set_enddt
          (DT (mkdatetime (date_ymd 2024 3 5) time0 (Some new_york)))
          allday_sample)).
Proof.
  split.
  - destruct (validation_on_plain_date sample_strptime
                sample_localize_utcoffset allday_sample "10:30")
      as [Hstart _].
    destruct (validation_on_plain_date sample_strptime
                sample_localize_utcoffset allday_sample "2024-03-05")
      as [Hstart' _].
    split.
    + exact (proj1 (Hstart (date_ymd 2024 3 1) eq_refl)).
    + exact (proj2 (Hstart' (date_ymd 2024 3 1) eq_refl)
               (mkdatetime (date_ymd 2024 3 5) time0 None) (-5 * HOUR)
               eq_refl eq_refl).
  - destruct (validation_on_plain_date sample_strptime
                sample_localize_utcoffset allday_sample "25:99")
      as [_ Hend].
    destruct (validation_on_plain_date sample_strptime
                sample_localize_utcoffset allday_sample "2024-03-05")
      as [_ Hend'].
    split.
    + exact (proj1 (Hend (date_ymd 2024 3 2) eq_refl)).
    + exact (proj2 (Hend' (date_ymd 2024 3 2) eq_refl)
               (mkdatetime (date_ymd 2024 3 5) time0 None) (-5 * HOUR)
               eq_refl eq_refl).
Defined.

(** C4 as stated fails: after [toggle_allday(False)] on an all-day editor
    the editor is in timed mode and neither start nor end has a tzinfo. *)
Lemma timed_without_timezone :
  let s := run sample_strptime sample_localize_utcoffset
               sample_fromutc_utcoffset sample_system_utcoffset paris
               allday_sample [ToggleAllday false] in
  allday s = false /\
  startdt s = DT (mkdatetime (date_ymd 2024 3 1) time0 None) /\
  enddt s = DT (mkdatetime (date_ymd 2024 3 2) time0 None) /\
  aware (startdt s) = false /\ aware (enddt s) = false.
Proof. repeat split. Qed.

Lemma representation_invariant_witness :
  let s :=
    run sample_strptime sample_localize_utcoffset sample_fromutc_utcoffset
        sample_system_utcoffset paris allday_sample
        [StartDate "2024-03-05"; ToggleAllday false; EndTime "11:45";
         ToggleTz true; ToggleAllday true] in
  (allday s = true ->
   exists d d', startdt s = D d /\ enddt s = D d' /\
                getattr_tzinfo (startdt s) = None /\
                getattr_tzinfo (enddt s) = None) /\
  (allday s = false ->
   exists a b, startdt s = DT a /\ enddt s = DT b /\
               timezone_start s = match dt_tzinfo a with
                                  | Some tz => tz
                                  | None => default_timezone sample_conf
                                  end /\
               timezone_end s = match dt_tzinfo b with
                                | Some tz => tz
                                | None => default_timezone sample_conf
                                end) /\
  isinstance_datetime (startdt s) = isinstance_datetime (enddt s).
Proof.
  apply (representation_invariant sample_strptime sample_localize_utcoffset
           sample_fromutc_utcoffset sample_system_utcoffset paris
           (D (date_ymd 2024 3 1)) (D (date_ymd 2024 3 2)) sample_conf).
  reflexivity.
Defined.



Lemma allday_round_trip_is_midnight_witness :
  exists s1 s2,
    toggle_allday true timed_sample = Returned tt s1 /\
    toggle_allday false s1 = Returned tt s2 /\
    _startdt s2 = DT (mkdatetime (date_ymd 2024 1 1) time0 None) /\
    _enddt s2 = DT (mkdatetime (date_ymd 2024 1 1) time0 None) /\
    allday s2 = false.
Proof.
  apply (allday_round_trip_is_midnight timed_sample
           (mkdatetime (date_ymd 2024 1 1) (mktime 9 0 0 0) (Some new_york))
           (mkdatetime (date_ymd 2024 1 1) (mktime 10 0 0 0) (Some new_york)));
    reflexivity.
Defined.

(** C8 as stated fails: 18:59 in New York on the last day of the calendar
    is an hour into the year 10000 in Paris, and [toggle_tz(True)] raises
    [OverflowError] instead of converting. *)
Lemma toggle_tz_overflows :
  toggle_tz sample_fromutc_utcoffset sample_system_utcoffset paris
    true last_day_sample
  = Raised OverflowError last_day_sample.
Proof. reflexivity. Qed.

Lemma tz_round_trip_preserves_instant_witness :
  exists s1 s2 a' b' za' zb',
    toggle_tz sample_fromutc_utcoffset sample_system_utcoffset paris
      true timed_sample = Returned tt s1 /\
    toggle_tz sample_fromutc_utcoffset sample_system_utcoffset paris
      false s1 = Returned tt s2 /\
    _startdt s2 = DT a' /\ dt_tzinfo a' = Some za' /\
    instant a' za'
    = instant (mkdatetime (date_ymd 2024 1 1) (mktime 9 0 0 0) (Some new_york))
              new_york /\
    _enddt s2 = DT b' /\ dt_tzinfo b' = Some zb' /\
    instant b' zb'
    = instant (mkdatetime (date_ymd 2024 1 1) (mktime 10 0 0 0) (Some new_york))
              new_york.
Proof.
  apply (tz_round_trip_preserves_instant sample_fromutc_utcoffset
           sample_system_utcoffset paris timed_sample);
    reflexivity.
Defined.

(** The scenario of the timezone round trip: 09:00 in New York, shown in
    Paris and then in the default zone again, is 09:00 in New York. *)
Example tz_round_trip_new_york_paris :
  exists s1,
    toggle_tz sample_fromutc_utcoffset sample_system_utcoffset paris
      true timed_sample = Returned tt s1 /\
    _startdt s1
    = DT (mkdatetime (date_ymd 2024 1 1) (mktime 15 0 0 0) (Some paris)) /\
    toggle_tz sample_fromutc_utcoffset sample_system_utcoffset paris
      false s1 = Returned tt timed_sample.
Proof.
  eexists. split; [reflexivity|]. split; reflexivity.
Qed.

(** Editing end time with "25:99" under "%H:%M" fails and keeps the end. *)
Example end_time_25_99 :
  _validate_end_time sample_strptime sample_localize_utcoffset
    "25:99" timed_sample = Returned None timed_sample.
Proof. reflexivity. Qed.

(** After an edit of the start of an editor built on naive datetimes the
    start is aware and the end still naive, and [validate] raises. *)
Example validate_mixed_raises :
  validate
    (run sample_strptime sample_localize_utcoffset sample_fromutc_utcoffset
         sample_system_utcoffset paris allday_sample
         [ToggleAllday false; StartTime "09:00"])
  = inl TypeError.
Proof. reflexivity. Qed.

(** ** The further properties in the concrete setting *)

Lemma validate_time_parsed_witness :
  _validate_start_time sample_strptime sample_localize_utcoffset
    "10:30" timed_sample
  = Returned (Some (mkdatetime (date_ymd 1900 1 1) (mktime 10 30 0 0) None))
      (set_startdt
         (DT (mkdatetime (date_ymd 2024 1 1) (mktime 10 30 0 0) (Some new_york)))
         timed_sample) /\
  _validate_end_time sample_strptime sample_localize_utcoffset
    "23:00" last_day_sample
  = Raised OverflowError last_day_sample.
Proof.
  split.
  - exact (proj1 (validate_time_parsed sample_strptime
                    sample_localize_utcoffset timed_sample "10:30"
                    (mkdatetime (date_ymd 1900 1 1) (mktime 10 30 0 0) None)
                    eq_refl) _ eq_refl).
  - exact (proj2 (validate_time_parsed sample_strptime
                    sample_localize_utcoffset last_day_sample "23:00"
                    (mkdatetime (date_ymd 1900 1 1) (mktime 23 0 0 0) None)
                    eq_refl) _ eq_refl).
Defined.

Lemma validate_end_date_parsed_witness :
  _validate_end_date sample_strptime sample_localize_utcoffset
    "2024-03-09" allday_sample
  = Returned (Some (mkdatetime (date_ymd 2024 3 9) time0 None))
      (set_enddt (DT (mkdatetime (date_ymd 2024 3 9) time0 (Some new_york)))
                 allday_sample).
Proof.
  exact (validate_end_date_parsed sample_strptime sample_localize_utcoffset
           allday_sample "2024-03-09"
           (mkdatetime (date_ymd 2024 3 9) time0 None) eq_refl).
Defined.

Lemma timed_round_trip_keeps_dates_witness :
  exists s1 s2,
    toggle_allday false allday_edited_sample = Returned tt s1 /\
    toggle_allday true s1 = Returned tt s2 /\
    allday s2 = true /\
    startdt s2 = D (date_ymd 2024 3 5) /\ enddt s2 = D (date_ymd 2024 3 2) /\
    (isinstance_datetime (_startdt allday_edited_sample) = false ->
     isinstance_datetime (_enddt allday_edited_sample) = false ->
     s2 = allday_edited_sample).
Proof.
  apply (timed_round_trip_keeps_dates allday_edited_sample). reflexivity.
Defined.




Lemma mode_change_is_a_change_witness :
  changed (run sample_strptime sample_localize_utcoffset
               sample_fromutc_utcoffset sample_system_utcoffset paris
               timed_sample [ToggleAllday true; StartDate "2024-01-01"])
  = true.
Proof.
  apply (mode_change_is_a_change sample_strptime sample_localize_utcoffset
           sample_fromutc_utcoffset sample_system_utcoffset paris
           (DT (mkdatetime (date_ymd 2024 1 1) (mktime 9 0 0 0) (Some new_york)))
           (DT (mkdatetime (date_ymd 2024 1 1) (mktime 10 0 0 0) (Some new_york)))
           sample_conf [ToggleAllday true; StartDate "2024-01-01"]);
    reflexivity.
Defined.

Lemma aware_editor_stays_comparable_witness :
  let s := run sample_strptime sample_localize_utcoffset
               sample_fromutc_utcoffset sample_system_utcoffset paris
               timed_sample
               [StartTime "10:30"; ToggleTz true; EndDate "2024-01-02";
                ToggleTz false] in
  allday s = false /\
  aware (_startdt s) = true /\ aware (_enddt s) = true /\
  exists b, validate s = inr b.
Proof.
  apply (aware_editor_stays_comparable sample_strptime
           sample_localize_utcoffset sample_fromutc_utcoffset
           sample_system_utcoffset paris
           (DT (mkdatetime (date_ymd 2024 1 1) (mktime 9 0 0 0) (Some new_york)))
           (DT (mkdatetime (date_ymd 2024 1 1) (mktime 10 0 0 0) (Some new_york)))
           sample_conf); reflexivity.
Defined.

Lemma validate_raises_after_leaving_allday_witness :
  (validate (run sample_strptime sample_localize_utcoffset
                 sample_fromutc_utcoffset sample_system_utcoffset paris
                 allday_sample [ToggleAllday false; StartTime "09:00"])
   = inl TypeError /\
   validate (run sample_strptime sample_localize_utcoffset
                 sample_fromutc_utcoffset sample_system_utcoffset paris
                 allday_sample [ToggleAllday false; EndTime "09:00"])
   = inl TypeError) /\
  (validate (run sample_strptime sample_localize_utcoffset
                 sample_fromutc_utcoffset sample_system_utcoffset paris
                 allday_sample [ToggleAllday false; StartDate "2024-03-01"])
   = inl TypeError /\
   validate (run sample_strptime sample_localize_utcoffset
                 sample_fromutc_utcoffset sample_system_utcoffset paris
                 allday_sample [ToggleAllday false; EndDate "2024-03-01"])
   = inl TypeError).
Proof.
  pose proof (validate_raises_after_leaving_allday sample_strptime
                sample_localize_utcoffset sample_fromutc_utcoffset
                sample_system_utcoffset paris allday_sample "09:00"
                eq_refl) as Htime.
  pose proof (validate_raises_after_leaving_allday sample_strptime
                sample_localize_utcoffset sample_fromutc_utcoffset
                sample_system_utcoffset paris allday_sample "2024-03-01"
                eq_refl) as Hdate.
  split.
  - destruct (proj1 Htime _ (-5 * HOUR) eq_refl) as [Hs He].
    split; [apply Hs | apply He]; reflexivity.
  - exact (proj2 Hdate _ (-5 * HOUR) eq_refl eq_refl).
Defined.


